(** * Grammar Correction API (main.py): retry controller and endpoints

    A shallow embedding of [main.py]: the pydantic models, the single
    correction attempt [get_corrections], the retry loop
    [exception_wrapper] and the two endpoints [correct_single_text] and
    [correct_batch_texts], followed by the properties of the
    specification that are stated about them.

    Conventions of the embedding.
    - A Python [str] is a list of Unicode code points.
    - Python exceptions are values of [exn]; a computation that may raise
      yields an [outcome].
    - The only effect that matters to the callers is the outbound call to
      the inference service.  The state threaded through the code is the
      number of such calls made so far, and the service is a script that
      maps the index of a call and its request to what the call yields.
    - Calls to [logger] do not influence control flow or results and are
      left out. *)

From Stdlib Require Import List ZArith NArith Bool Lia String Ascii.
From Stdlib Require Import DecimalString.
From Equations Require Import Equations.
Import ListNotations.

Open Scope Z_scope.

(** ** Python strings *)

Definition pystr := list N.

(** A source literal, character by character. *)
Definition lit (s : string) : pystr :=
  List.map N_of_ascii (list_ascii_of_string s).

(** The double quote character that the prompt puts around the sentence. *)
Definition dquote : pystr := [34%N].

(** [str(n)] for an integer. *)
Definition str_int (z : Z) : pystr :=
  lit (NilZero.string_of_int (Z.to_int z)).

(** The characters [str.strip()] removes: those for which [str.isspace]
    holds. *)
Definition is_space (c : N) : bool :=
  ((9 <=? c) && (c <=? 13) || (28 <=? c) && (c <=? 32)
   || (c =? 133) || (c =? 160) || (c =? 5760)
   || (8192 <=? c) && (c <=? 8202)
   || (c =? 8232) || (c =? 8233) || (c =? 8239) || (c =? 8287)
   || (c =? 12288))%N.

Fixpoint lstrip (s : pystr) : pystr :=
  match s with
  | [] => []
  | c :: s' => if is_space c then lstrip s' else s
  end.

Definition rstrip (s : pystr) : pystr := rev (lstrip (rev s)).

Definition strip (s : pystr) : pystr := rstrip (lstrip s).

(** Truth value of a string: [not s] is [negb (truthy s)]. *)
Definition truthy (s : pystr) : bool :=
  match s with [] => false | _ :: _ => true end.

(** ** Pydantic models *)

Record Correction := {
  wrong_word : pystr;
  correct_word : pystr;
  reason_of_error : pystr
}.

Record Answer := {
  answer_corrections : list Correction;
  answer_correct_sentence : pystr
}.

(** [ApiResponse] extends [Answer] with the original sentence.  Its
    [model_dump()] is the dictionary with the same three keys, which is
    what the functions below pass around. *)
Record ApiResponse := {
  corrections : list Correction;
  correct_sentence : pystr;
  original_sentence : pystr
}.

Definition model_dump (r : ApiResponse) : ApiResponse := r.

(** Request bodies. *)
Record TextInput := { text : pystr }.

Record TextListInput := { texts : list pystr }.

(** ** Exceptions *)

Inductive exn :=
| ResponseError (error : pystr) (status_code : Z)
| ValueError (msg : pystr)
| JSONDecodeError (msg : pystr)
| HTTPException (status_code : Z) (detail : pystr)
| OtherException (msg : pystr).

(** [isinstance(e, ValueError)]: [json.JSONDecodeError] is a subclass. *)
Definition isinstance_ValueError (e : exn) : bool :=
  match e with
  | ValueError _ | JSONDecodeError _ => true
  | _ => false
  end.

(** [str(e)], as the f-strings use it.  [OtherException] carries its text;
    the two library exceptions print their fields. *)
Definition str_exn (e : exn) : pystr :=
  match e with
  | ResponseError error sc =>
      error ++ lit " (status code: " ++ str_int sc ++ lit ")"
  | ValueError msg | JSONDecodeError msg | OtherException msg => msg
  | HTTPException sc detail => str_int sc ++ lit ": " ++ detail
  end.

Inductive outcome (A : Type) :=
| Return (a : A)
| Raise (e : exn).
Arguments Return {A} a.
Arguments Raise {A} e.

(** ** Computations that call the inference service *)

(** Number of calls made so far. *)
Definition Calls := nat.

Definition M (A : Type) := Calls -> outcome A * Calls.

Definition ret {A} (a : A) : M A := fun n => (Return a, n).

Definition raise {A} (e : exn) : M A := fun n => (Raise e, n).

Definition bind {A B} (m : M A) (k : A -> M B) : M B :=
  fun n =>
    match m n with
    | (Return a, n') => k a n'
    | (Raise e, n') => (Raise e, n')
    end.

(** [try: m  except Exception as e: h e] *)
Definition try_except {A} (m : M A) (h : exn -> M A) : M A :=
  fun n =>
    match m n with
    | (Return a, n') => (Return a, n')
    | (Raise e, n') => h e n'
    end.

(** A pure call that may raise. *)
Definition lift {A} (o : outcome A) : M A := fun n => (o, n).

Notation "x <- m ;; k" := (bind m (fun x => k))
  (at level 61, m at next level, right associativity).

(** ** The inference service *)

Record Message := { content : option pystr }.

Record ChatResponse := { message : option Message }.

(** The arguments of [chat]: the role and content of the one message,
    the model, the name of the model whose JSON schema is the [format],
    and the sampling temperature. *)
Record ChatRequest := {
  role : pystr;
  prompt : pystr;
  model : pystr;
  format : pystr;
  temperature : Z
}.

(** The instruction sent for a sentence. *)
Definition chat_request (text : pystr) : ChatRequest :=
  {| role := lit "user";
     prompt :=
       lit "Correct all the grammar and spelling errors in the following sentence. Try to give every answer. Respond ONLY with a JSON object matching the provided schema. Sentence: "
       ++ dquote ++ text ++ dquote;
     model := lit "gemma3";
     format := lit "Answer";
     temperature := 0 |}.

(** [response and response.get("message") and
    response["message"].get("content")]: the content when the whole chain
    is truthy. *)
Definition response_content (response : option ChatResponse)
  : option pystr :=
  match response with
  | Some r =>
      match message r with
      | Some m =>
          match content m with
          | Some c => if truthy c then Some c else None
          | None => None
          end
      | None => None
      end
  | None => None
  end.

Section Adapter.

(** What the [i]-th call to [ollama.chat] yields for a request. *)
Variable chat : Calls -> ChatRequest -> outcome (option ChatResponse).

(** [Answer.model_validate_json]. *)
Variable model_validate_json : pystr -> outcome Answer.

(** [str(response)]. *)
Variable str_response : option ChatResponse -> pystr.

Definition call_chat (req : ChatRequest) : M (option ChatResponse) :=
  fun n => (chat n req, S n).

Definition get_corrections (text : pystr) : M ApiResponse :=
  try_except
    (response <- call_chat (chat_request text) ;;
     match response_content response with
     | Some content =>
         try_except
           (parsed_ollama_response <- lift (model_validate_json content) ;;
            let final_response :=
              {| corrections := answer_corrections parsed_ollama_response;
                 correct_sentence :=
                   answer_correct_sentence parsed_ollama_response;
                 original_sentence := text |} in
            ret (model_dump final_response))
           (fun e =>
              match e with
              | JSONDecodeError _ =>
                  raise (ValueError
                    (lit "Ollama response was not valid JSON: " ++ content))
              | _ =>
                  raise (ValueError
                    (lit "Ollama response did not match expected format: "
                     ++ content))
              end)
     | None =>
         raise (ValueError
           (lit "Unexpected Ollama response structure: "
            ++ str_response response))
     end)
    (fun e =>
       match e with
       | ResponseError error _ =>
           raise (HTTPException 503 (lit "Ollama service error: " ++ error))
       | _ =>
           if isinstance_ValueError e then
             raise (HTTPException 502
               (lit "Bad response from correction service: " ++ str_exn e))
           else
             raise (HTTPException 500
               (lit "Internal server error during correction: "
                ++ str_exn e))
       end).

End Adapter.

(** ** Retry controller and endpoints *)

(** [e.status_code in [503, 504]] *)
Definition retryable (status_code : Z) : bool :=
  (status_code =? 503) || (status_code =? 504).

Definition default_max_retries : Z := 5.

Section Controller.

(** The function bound to the module-level name [get_corrections] when
    the wrapper runs: [Adapter]'s function in the service, a stand-in
    where a property is about a simulated single attempt. *)
Variable attempt : pystr -> M ApiResponse.

(** The [while retries < max_retries] loop of [exception_wrapper], from
    the current value of [retries].  The first split is the loop test; its
    [right] branch is the [raise] that follows the loop.  Under
    [except HTTPException], [retries + 1] is [retries] after
    [retries += 1], and the split on [Z_gt_dec] is
    [if retries > max_retries: raise e]; otherwise the loop goes round.
    The last clause is [except Exception]. *)
Equations? retry_loop (text : pystr) (max_retries retries : Z) (n : Calls)
  : outcome ApiResponse * Calls
  by wf (Z.to_nat (max_retries - retries)) lt :=
  retry_loop text max_retries retries n
    with Z_lt_dec retries max_retries := {
    | right _ =>
        raise (HTTPException 500
          (lit "Correction failed after multiple retries without specific error."))
          n
    | left _ with attempt text n := {
      | (Return d, n') => (Return d, n')
      | (Raise (HTTPException status_code detail), n')
          with retryable status_code := {
        | true with Z_gt_dec (retries + 1) max_retries := {
          | left _ => (Raise (HTTPException status_code detail), n')
          | right _ => retry_loop text max_retries (retries + 1) n' }
        | false => (Raise (HTTPException status_code detail), n') }
      | (Raise e, n') =>
          (Raise (HTTPException 500
             (lit "Unexpected internal server error: " ++ str_exn e)), n') } }.
Proof. lia. Qed.

Definition exception_wrapper (text : pystr) (max_retries : Z)
  : M ApiResponse :=
  retry_loop text max_retries 0.

Definition exception_wrapper_default (text : pystr) : M ApiResponse :=
  exception_wrapper text default_max_retries.

(** [POST /correct/single] *)
Definition correct_single_text (input_data : TextInput) : M ApiResponse :=
  if negb (truthy (strip (text input_data))) then
    raise (HTTPException 400 (lit "Input text cannot be empty."))
  else
    try_except
      (result_dict <- exception_wrapper_default (text input_data) ;;
       ret result_dict)
      (fun e =>
         match e with
         | HTTPException _ _ => raise e
         | _ =>
             raise (HTTPException 500
               (lit "An unexpected internal error occurred."))
         end).

(** The [for text in input_data.texts] loop of [correct_batch_texts];
    [results] is the list built so far. *)
Fixpoint batch_loop (texts : list pystr) (results : list ApiResponse)
  : M (list ApiResponse) :=
  match texts with
  | [] => ret results
  | text :: rest =>
      if negb (truthy (strip text)) then
        batch_loop rest
          (results ++
           [model_dump {| original_sentence := text;
                          corrections := [];
                          correct_sentence := lit EmptyString |}])
      else
        results' <-
          try_except
            (result_dict <- exception_wrapper_default text ;;
             ret (results ++ [result_dict]))
            (fun e =>
               match e with
               | HTTPException _ detail =>
                   ret (results ++
                        [model_dump
                           {| original_sentence := text;
                              corrections := [];
                              correct_sentence := lit "Error: " ++ detail |}])
               | _ =>
                   ret (results ++
                        [model_dump
                           {| original_sentence := text;
                              corrections := [];
                              correct_sentence :=
                                lit "Error: Unexpected internal server error"
                           |}])
               end) ;;
        batch_loop rest results'
  end.

(** [POST /correct/batch] *)
Definition correct_batch_texts (input_data : TextListInput)
  : M (list ApiResponse) :=
  match texts input_data with
  | [] => raise (HTTPException 400 (lit "Input text list cannot be empty."))
  | _ :: _ => batch_loop (texts input_data) []
  end.

End Controller.

(** ** Vocabulary of the properties *)

(** The test [not text.strip()] of both endpoints. *)
Definition blank (s : pystr) : bool := negb (truthy (strip s)).

(** The error raised after the [while] loop of [exception_wrapper]. *)
Definition exhausted_without_error : exn :=
  HTTPException 500
    (lit "Correction failed after multiple retries without specific error.").

(** Whether the wrapper answers an exception of the single attempt with
    another attempt. *)
Definition retried (e : exn) : bool :=
  match e with
  | HTTPException status_code _ => retryable status_code
  | _ => false
  end.

(** The entry that stands for a blank batch item. *)
Definition blank_placeholder (text : pystr) : ApiResponse :=
  {| corrections := []; correct_sentence := []; original_sentence := text |}.

(** The entry that stands for a batch item whose processing failed. *)
Definition error_placeholder (text detail : pystr) : ApiResponse :=
  {| corrections := [];
     correct_sentence := lit "Error: " ++ detail;
     original_sentence := text |}.

(** The entry the loop body of [correct_batch_texts] appends for [text],
    from what the wrapper did. *)
Definition entry_of (text : pystr) (r : outcome ApiResponse) : ApiResponse :=
  match r with
  | Return result_dict => result_dict
  | Raise (HTTPException _ detail) => error_placeholder text detail
  | Raise _ =>
      {| corrections := [];
         correct_sentence := lit "Error: Unexpected internal server error";
         original_sentence := text |}
  end.

(** ** A simulated inference service *)

Definition sample_payload : pystr :=
  lit "{" ++ dquote ++ lit "corrections" ++ dquote ++ lit ": [], "
  ++ dquote ++ lit "correct_sentence" ++ dquote ++ lit ": "
  ++ dquote ++ lit "I have an apple." ++ dquote ++ lit "}".

Definition sample_answer : Answer :=
  {| answer_corrections := [];
     answer_correct_sentence := lit "I have an apple." |}.

(** A validator that knows one payload. *)
Definition sample_validate (c : pystr) : outcome Answer :=
  if list_eq_dec N.eq_dec c sample_payload then Return sample_answer
  else Raise (JSONDecodeError (lit "Expecting value")).

Definition sample_str_response (r : option ChatResponse) : pystr :=
  match r with
  | None => lit "None"
  | Some _ => lit "model='gemma3'"
  end.

Definition sample_response : option ChatResponse :=
  Some {| message := Some {| content := Some sample_payload |} |}.

(** The service is unavailable for the first [k] calls and answers with
    [sample_payload] from then on. *)
Definition flaky_chat (k : nat) (i : Calls) (_ : ChatRequest)
  : outcome (option ChatResponse) :=
  if (i <? k)%nat then Raise (ResponseError (lit "model is loading") 503)
  else Return sample_response.

(** The service never becomes available. *)
Definition down_chat (_ : Calls) (_ : ChatRequest)
  : outcome (option ChatResponse) :=
  Raise (ResponseError (lit "model is loading") 503).

(** The service answers with text that is not JSON. *)
Definition garbled_chat (_ : Calls) (_ : ChatRequest)
  : outcome (option ChatResponse) :=
  Return (Some {| message := Some {| content := Some (lit "Sure! Here it is") |} |}).

(** The call to the service itself raises a [ValueError]; no payload is
    ever received. *)
Definition value_error_chat (_ : Calls) (_ : ChatRequest)
  : outcome (option ChatResponse) :=
  Raise (ValueError (lit "Invalid format")).

(** A stand-in for the single attempt that raises a plain exception. *)
Definition crashing_attempt (_ : pystr) : M ApiResponse :=
  fun n => (Raise (OtherException (lit "connection reset")), S n).

Definition sentence : pystr := lit "I has a apple.".

(** What a single attempt against [garbled_chat] raises. *)
Definition garbled_detail : pystr :=
  lit "Bad response from correction service: Ollama response was not valid JSON: Sure! Here it is".

(** A string of blanks: two spaces, a tab and a no-break space. *)
Definition blanks : pystr := [32; 32; 9; 160]%N.

(** What the wrapper raises for a failure of the single attempt that it
    does not retry: [raise e] under [except HTTPException], the status 500
    error of [except Exception] otherwise. *)
Definition surfaced (e : exn) : exn :=
  match e with
  | HTTPException _ _ => e
  | _ => HTTPException 500
           (lit "Unexpected internal server error: " ++ str_exn e)
  end.

(** Number of batch items that are sent to the wrapper. *)
Definition sent_count (ts : list pystr) : nat :=
  List.length (List.filter (fun t => negb (blank t)) ts).

(** The service answers, and the content of its message is empty. *)
Definition silent_chat (_ : Calls) (_ : ChatRequest)
  : outcome (option ChatResponse) :=
  Return (Some {| message := Some {| content := Some [] |} |}).

(** A stand-in for the single attempt that times out at the gateway
    twice, then succeeds. *)
Definition slow_attempt (text : pystr) : M ApiResponse :=
  fun n =>
    if (n <? 2)%nat then (Raise (HTTPException 504 (lit "Gateway Timeout")), S n)
    else (Return {| corrections := [];
                    correct_sentence := text;
                    original_sentence := text |}, S n).

(** A stand-in for the single attempt that times out at the gateway
    twice, then fails for good. *)
Definition timing_out_attempt (_ : pystr) : M ApiResponse :=
  fun n =>
    if (n <? 2)%nat then (Raise (HTTPException 504 (lit "Gateway Timeout")), S n)
    else (Raise (ValueError (lit "bad value")), S n).

(** * Properties *)

(** ** Blank strings *)

Lemma lstrip_nil_iff (s : pystr) :
  lstrip s = [] <-> forallb is_space s = true.
Proof.
  induction s as [|c s IH]; simpl.
  - tauto.
  - destruct (is_space c) eqn:Hc; simpl.
    + exact IH.
    + split; discriminate.
Qed.

Lemma forallb_rev (A : Type) (f : A -> bool) (l : list A) :
  forallb f (rev l) = forallb f l.
Proof.
  induction l as [|a l IH]; simpl; [reflexivity|].
  rewrite forallb_app, IH. simpl. rewrite andb_true_r. apply andb_comm.
Qed.

Lemma lstrip_head (s : pystr) :
  lstrip s = [] \/ exists c s', lstrip s = c :: s' /\ is_space c = false.
Proof.
  induction s as [|c s IH]; simpl.
  - now left.
  - destruct (is_space c) eqn:Hc; [exact IH|].
    right. now exists c, s.
Qed.

Lemma blank_iff (s : pystr) :
  blank s = true <-> forallb is_space s = true.
Proof.
  unfold blank, strip, rstrip.
  split.
  - intros H.
    assert (Hr : rev (lstrip (rev (lstrip s))) = []).
    { destruct (rev (lstrip (rev (lstrip s)))); [reflexivity|discriminate]. }
    apply (f_equal (@rev N)) in Hr. rewrite rev_involutive in Hr. simpl in Hr.
    apply lstrip_nil_iff in Hr. rewrite forallb_rev in Hr.
    destruct (lstrip_head s) as [Hn | (c & s' & Hs & Hc)].
    + now apply lstrip_nil_iff.
    + rewrite Hs in Hr. simpl in Hr. rewrite Hc in Hr. discriminate.
  - intros H. apply lstrip_nil_iff in H. rewrite H. reflexivity.
Qed.

(** ** The retry loop, one iteration at a time *)

Section ControllerFacts.

Variable attempt : pystr -> M ApiResponse.

Lemma retry_loop_step (text : pystr) (max_retries retries : Z) (n : Calls) :
  retry_loop attempt text max_retries retries n =
  if retries <? max_retries then
    match attempt text n with
    | (Return d, n') => (Return d, n')
    | (Raise (HTTPException status_code detail), n') =>
        if retryable status_code then
          if retries + 1 >? max_retries
          then (Raise (HTTPException status_code detail), n')
          else retry_loop attempt text max_retries (retries + 1) n'
        else (Raise (HTTPException status_code detail), n')
    | (Raise e, n') =>
        (Raise (HTTPException 500
           (lit "Unexpected internal server error: " ++ str_exn e)), n')
    end
  else (Raise exhausted_without_error, n).
Proof.
  funelim (retry_loop attempt text max_retries retries n).
  all: try (destruct (Z.ltb_spec retries max_retries); [|lia]).
  all: try (destruct (Z.ltb_spec retries max_retries); [lia|]).
  all: try reflexivity.
  all: repeat match goal with
         | H : retryable _ = _ |- _ => rewrite H; clear H
         | H : attempt _ _ = _ |- _ => rewrite H; clear H
         end.
  all: try reflexivity.
  - exfalso. lia.
  - destruct (Z.gtb_spec (retries + 1) max_retries); [lia | reflexivity].
Qed.

(** Every invocation of the single attempt is one more call. *)
Hypothesis attempt_ticks :
  forall (text : pystr) (n : Calls), snd (attempt text n) = S n.

Lemma attempt_outcome (text : pystr) (n : Calls) :
  attempt text n = (fst (attempt text n), S n).
Proof.
  rewrite <- (attempt_ticks text n). apply surjective_pairing.
Qed.

(** While the attempts keep failing with a retried status, the loop
    runs until [retries] reaches [max_retries] and then falls through. *)
Lemma retry_loop_falls_through (text : pystr) (max_retries : Z) :
  forall (m : nat) (retries : Z) (n : Calls),
    m = Z.to_nat (max_retries - retries) ->
    (forall j, (j < m)%nat ->
       exists e, fst (attempt text (n + j)%nat) = Raise e
                 /\ retried e = true) ->
    retry_loop attempt text max_retries retries n
    = (Raise exhausted_without_error, (n + m)%nat).
Proof.
  induction m as [|m IH]; intros retries n Hm Hfail;
    rewrite retry_loop_step.
  - destruct (Z.ltb_spec retries max_retries); [lia|].
    now rewrite Nat.add_0_r.
  - destruct (Z.ltb_spec retries max_retries); [|lia].
    destruct (Hfail 0%nat ltac:(lia)) as (e & He & Hr).
    rewrite Nat.add_0_r in He.
    rewrite attempt_outcome, He.
    destruct e as [| | |status_code detail|]; try discriminate Hr.
    simpl in Hr. rewrite Hr.
    destruct (Z.gtb_spec (retries + 1) max_retries); [lia|].
    rewrite (IH (retries + 1) (S n)).
    + f_equal. lia.
    + lia.
    + intros j Hj. replace (S n + j)%nat with (n + S j)%nat by lia.
      apply Hfail. lia.
Qed.

(** [k] retried failures followed by a success, with [k] below the
    number of iterations that are left. *)
Lemma retry_loop_returns (text : pystr) (max_retries : Z) (d : ApiResponse) :
  forall (k : nat) (retries : Z) (n : Calls),
    (k < Z.to_nat (max_retries - retries))%nat ->
    (forall j, (j < k)%nat ->
       exists e, fst (attempt text (n + j)%nat) = Raise e
                 /\ retried e = true) ->
    fst (attempt text (n + k)%nat) = Return d ->
    retry_loop attempt text max_retries retries n
    = (Return d, S (n + k)).
Proof.
  induction k as [|k IH]; intros retries n Hk Hfail Hok;
    rewrite retry_loop_step;
    (destruct (Z.ltb_spec retries max_retries); [|lia]).
  - rewrite Nat.add_0_r in Hok.
    now rewrite attempt_outcome, Hok, Nat.add_0_r.
  - destruct (Hfail 0%nat ltac:(lia)) as (e & He & Hr).
    rewrite Nat.add_0_r in He.
    rewrite attempt_outcome, He.
    destruct e as [| | |status_code detail|]; try discriminate Hr.
    simpl in Hr. rewrite Hr.
    destruct (Z.gtb_spec (retries + 1) max_retries); [lia|].
    rewrite (IH (retries + 1) (S n)).
    + f_equal. lia.
    + lia.
    + intros j Hj. replace (S n + j)%nat with (n + S j)%nat by lia.
      apply Hfail. lia.
    + replace (S n + k)%nat with (n + S k)%nat by lia. exact Hok.
Qed.

(** A failure that is not retried ends the loop at once. *)
Lemma retry_loop_gives_up (text : pystr) (max_retries retries : Z)
      (n : Calls) (e : exn) :
  retries < max_retries ->
  fst (attempt text n) = Raise e ->
  retried e = false ->
  retry_loop attempt text max_retries retries n
  = (Raise (match e with
            | HTTPException _ _ => e
            | _ => HTTPException 500
                     (lit "Unexpected internal server error: " ++ str_exn e)
            end), S n).
Proof.
  intros Hlt He Hr. rewrite retry_loop_step.
  destruct (Z.ltb_spec retries max_retries); [|lia].
  rewrite attempt_outcome, He.
  destruct e; try reflexivity.
  simpl in Hr. now rewrite Hr.
Qed.

End ControllerFacts.

(** ** The single attempt *)

Section AdapterFacts.

Variable chat : Calls -> ChatRequest -> outcome (option ChatResponse).
Variable model_validate_json : pystr -> outcome Answer.
Variable str_response : option ChatResponse -> pystr.


(** What one attempt yields, read off the outcome of the call to the
    service and of the validation. *)
Lemma get_corrections_table (text : pystr) (n : Calls) :
  get_corrections chat model_validate_json str_response text n =
  (match chat n (chat_request text) with
   | Raise (ResponseError error _) =>
       Raise (HTTPException 503 (lit "Ollama service error: " ++ error))
   | Raise e =>
       if isinstance_ValueError e then
         Raise (HTTPException 502
           (lit "Bad response from correction service: " ++ str_exn e))
       else
         Raise (HTTPException 500
           (lit "Internal server error during correction: " ++ str_exn e))
   | Return response =>
       match response_content response with
       | None =>
           Raise (HTTPException 502
             (lit "Bad response from correction service: "
              ++ lit "Unexpected Ollama response structure: "
              ++ str_response response))
       | Some c =>
           match model_validate_json c with
           | Return a =>
               Return {| corrections := answer_corrections a;
                         correct_sentence := answer_correct_sentence a;
                         original_sentence := text |}
           | Raise (JSONDecodeError _) =>
               Raise (HTTPException 502
                 (lit "Bad response from correction service: "
                  ++ lit "Ollama response was not valid JSON: " ++ c))
           | Raise _ =>
               Raise (HTTPException 502
                 (lit "Bad response from correction service: "
                  ++ lit "Ollama response did not match expected format: "
                  ++ c))
           end
       end
   end, S n).
Proof.
  unfold get_corrections, try_except, bind,
    call_chat, lift, ret, raise, model_dump.
  destruct (chat n (chat_request text)) as [response|e].
  - destruct (response_content response) as [c|]; [|reflexivity].
    destruct (model_validate_json c) as [a|e]; [reflexivity|].
    destruct e; reflexivity.
  - destruct e; reflexivity.
Qed.

Lemma get_corrections_ticks (text : pystr) (n : Calls) :
  snd (get_corrections chat model_validate_json str_response text n) = S n.
Proof. now rewrite get_corrections_table. Qed.

End AdapterFacts.

(** ** The wrapper and the batch loop over any single attempt *)

Section EndpointFacts.

Variable attempt : pystr -> M ApiResponse.

(** Whatever the single attempt raises, the wrapper raises an
    [HTTPException]. *)
Lemma retry_loop_raises_http (text : pystr) (max_retries retries : Z)
      (n : Calls) :
  forall e n',
    retry_loop attempt text max_retries retries n = (Raise e, n') ->
    exists status_code detail, e = HTTPException status_code detail.
Proof.
  funelim (retry_loop attempt text max_retries retries n);
    intros e0 m Hres;
    try (injection Hres as <- _; eauto; fail);
    try discriminate Hres.
  eauto.
Qed.

Lemma exception_wrapper_raises_http (text : pystr) (n n' : Calls) (e : exn) :
  exception_wrapper_default attempt text n = (Raise e, n') ->
  exists status_code detail, e = HTTPException status_code detail.
Proof. apply retry_loop_raises_http. Qed.

Lemma batch_loop_cons (text : pystr) (rest : list pystr)
      (results : list ApiResponse) (n : Calls) :
  batch_loop attempt (text :: rest) results n =
  if blank text then
    batch_loop attempt rest (results ++ [blank_placeholder text]) n
  else
    batch_loop attempt rest
      (results ++
       [entry_of text (fst (exception_wrapper_default attempt text n))])
      (snd (exception_wrapper_default attempt text n)).
Proof.
  simpl. unfold blank.
  destruct (negb (truthy (strip text))); [reflexivity|].
  unfold bind, try_except, ret.
  destruct (exception_wrapper_default attempt text n) as [[r|e] n1];
    simpl; [reflexivity|].
  destruct e; reflexivity.
Qed.

(** The list built so far is only ever extended. *)
Lemma batch_loop_acc (texts : list pystr) :
  forall (results : list ApiResponse) (n : Calls),
    batch_loop attempt texts results n =
    match batch_loop attempt texts [] n with
    | (Return out, n') => (Return (results ++ out), n')
    | (Raise e, n') => (Raise e, n')
    end.
Proof.
  induction texts as [|text rest IH]; intros results n.
  - simpl. unfold ret. now rewrite app_nil_r.
  - rewrite !batch_loop_cons.
    destruct (blank text).
    + rewrite (IH (results ++ _)), (IH ([] ++ _)).
      destruct (batch_loop attempt rest [] n) as [[out|e] n'];
        [|reflexivity].
      now rewrite <- app_assoc.
    + rewrite (IH (results ++ _)), (IH ([] ++ _)).
      destruct (batch_loop attempt rest [] _) as [[out|e] n'];
        [|reflexivity].
      now rewrite <- app_assoc.
Qed.

(** The loop never raises and appends one entry per input. *)
Lemma batch_loop_total (texts : list pystr) :
  forall (n : Calls),
    exists out n',
      batch_loop attempt texts [] n = (Return out, n')
      /\ List.length out = List.length texts.
Proof.
  induction texts as [|text rest IH]; intros n.
  - exists [], n. now split.
  - rewrite batch_loop_cons.
    destruct (blank text).
    + destruct (IH n) as (out & n' & Hout & Hlen).
      rewrite batch_loop_acc, Hout.
      eexists _, _. split; [reflexivity|]. simpl. now rewrite Hlen.
    + destruct (IH (snd (exception_wrapper_default attempt text n)))
        as (out & n' & Hout & Hlen).
      rewrite batch_loop_acc, Hout.
      eexists _, _. split; [reflexivity|]. simpl. now rewrite Hlen.
Qed.

(** Processing a concatenation is processing the two parts in turn. *)
Lemma batch_loop_app (pre post : list pystr) :
  forall (n : Calls) (out1 out2 : list ApiResponse) (n1 n2 : Calls),
    batch_loop attempt pre [] n = (Return out1, n1) ->
    batch_loop attempt post [] n1 = (Return out2, n2) ->
    batch_loop attempt (pre ++ post) [] n = (Return (out1 ++ out2), n2).
Proof.
  induction pre as [|text rest IH]; intros n out1 out2 n1 n2 Hpre Hpost.
  - simpl in Hpre. unfold ret in Hpre. injection Hpre as <- <-.
    exact Hpost.
  - simpl app. rewrite batch_loop_cons in *.
    destruct (blank text).
    + rewrite batch_loop_acc in Hpre.
      destruct (batch_loop attempt rest [] n) as [[o|e] m] eqn:Hrest;
        [|discriminate].
      injection Hpre as <- <-.
      rewrite batch_loop_acc, (IH _ _ _ _ _ Hrest Hpost).
      now rewrite <- app_assoc.
    + rewrite batch_loop_acc in Hpre.
      destruct (batch_loop attempt rest [] _) as [[o|e] m] eqn:Hrest;
        [|discriminate].
      injection Hpre as <- <-.
      rewrite batch_loop_acc, (IH _ _ _ _ _ Hrest Hpost).
      now rewrite <- app_assoc.
Qed.

End EndpointFacts.

(** ** Retry controller *)

(** Within the budget of the loop the wrapper behaves as a retry
    controller should: after [k] retried failures, with [k] strictly below
    [max_retries], the success of attempt [k+1] is returned and the single
    attempt has been invoked [k+1] times. *)
Lemma exception_wrapper_returns_within_budget
      (attempt : pystr -> M ApiResponse) (text : pystr) (max_retries : Z)
      (n : Calls) (k : nat) (d : ApiResponse) :
  (forall t i, snd (attempt t i) = S i) ->
  Z.of_nat k < max_retries ->
  (forall j, (j < k)%nat ->
     exists detail,
       fst (attempt text (n + j)%nat) = Raise (HTTPException 503 detail)) ->
  fst (attempt text (n + k)%nat) = Return d ->
  exception_wrapper attempt text max_retries n = (Return d, (n + (k + 1))%nat).
Proof.
  intros Hticks Hk Hfail Hok. unfold exception_wrapper.
  rewrite (@retry_loop_returns attempt Hticks text max_retries d k 0 n).
  - f_equal. lia.
  - lia.
  - intros j Hj. destruct (Hfail j Hj) as (detail & He). eauto.
  - exact Hok.
Qed.

(** C1, at [k = max_retries = 5].  The service is unavailable for the
    first five calls and answers the sixth: the first five single attempts
    fail with status 503, a sixth one would succeed, and yet the wrapper
    stops after five attempts and raises the status 500 error that follows
    its loop, instead of returning the success of a sixth attempt. *)
Theorem exception_wrapper_stops_one_attempt_short :
  (forall j, (j < 5)%nat ->
     exists detail,
       fst (get_corrections (flaky_chat 5) sample_validate sample_str_response
              sentence j)
       = Raise (HTTPException 503 detail))
  /\ (exists d,
        fst (get_corrections (flaky_chat 5) sample_validate sample_str_response
               sentence 5%nat)
        = Return d)
  /\ exception_wrapper
       (get_corrections (flaky_chat 5) sample_validate sample_str_response)
       sentence default_max_retries 0%nat
     = (Raise exhausted_without_error, 5%nat).
Proof.
  split; [|split].
  - intros j Hj.
    do 5 (destruct j as [|j]; [eexists; reflexivity|]). lia.
  - eexists. reflexivity.
  - vm_compute. reflexivity.
Qed.

(** C2, what the code does.  When every single attempt fails with status
    503, the wrapper invokes the single attempt [max_retries] times, not
    [max_retries + 1] times, and then raises the status 500 error that
    follows its loop, not the last status 503 failure. *)
Theorem exception_wrapper_exhaustion
        (attempt : pystr -> M ApiResponse) (text : pystr) (max_retries : Z)
        (n : Calls) :
  (forall t i, snd (attempt t i) = S i) ->
  0 <= max_retries ->
  (forall j, exists detail,
     fst (attempt text (n + j)%nat) = Raise (HTTPException 503 detail)) ->
  exception_wrapper attempt text max_retries n
  = (Raise exhausted_without_error, (n + Z.to_nat max_retries)%nat).
Proof.
  intros Hticks Hmr Hfail. unfold exception_wrapper.
  apply (@retry_loop_falls_through attempt Hticks).
  - f_equal. lia.
  - intros j _. destruct (Hfail j) as (detail & He). eauto.
Qed.

Lemma exception_wrapper_exhaustion_witness :
  exception_wrapper
    (get_corrections down_chat sample_validate sample_str_response)
    sentence default_max_retries 0%nat
  = (Raise exhausted_without_error, 5%nat).
Proof.
  apply (@exception_wrapper_exhaustion
           (get_corrections down_chat sample_validate sample_str_response)
           sentence default_max_retries 0%nat).
  - intros t i. reflexivity.
  - unfold default_max_retries. lia.
  - intros j. eexists. reflexivity.
Defined.

(** C3.  When the first single attempt fails with an error the wrapper
    does not retry (an [HTTPException] whose status is neither 503 nor
    504, such as 502 or 500, or an exception of any other class), the
    single attempt is invoked exactly once and the failure reaches the
    caller: an [HTTPException] as it is, an exception of another class as
    a status 500 error that carries its text. *)
Theorem exception_wrapper_non_retryable
        (attempt : pystr -> M ApiResponse) (text : pystr) (max_retries : Z)
        (n : Calls) (e : exn) :
  (forall t i, snd (attempt t i) = S i) ->
  0 < max_retries ->
  fst (attempt text n) = Raise e ->
  retried e = false ->
  exception_wrapper attempt text max_retries n
  = (Raise (match e with
            | HTTPException _ _ => e
            | _ => HTTPException 500
                     (lit "Unexpected internal server error: " ++ str_exn e)
            end), (n + 1)%nat).
Proof.
  intros Hticks Hmr He Hr. unfold exception_wrapper.
  rewrite (@retry_loop_gives_up attempt Hticks text max_retries 0 n e
             Hmr He Hr).
  f_equal. lia.
Qed.

Lemma exception_wrapper_non_retryable_witness :
  exception_wrapper
    (get_corrections garbled_chat sample_validate sample_str_response)
    sentence default_max_retries 0%nat
  = (Raise (HTTPException 502 garbled_detail), 1%nat).
Proof.
  apply (@exception_wrapper_non_retryable
           (get_corrections garbled_chat sample_validate sample_str_response)
           sentence default_max_retries 0%nat
           (HTTPException 502 garbled_detail)).
  - intros t i. reflexivity.
  - unfold default_max_retries. lia.
  - reflexivity.
  - reflexivity.
Defined.

(** The same with a stand-in that raises a plain exception. *)
Example exception_wrapper_plain_exception :
  exception_wrapper crashing_attempt sentence default_max_retries 0%nat
  = (Raise (HTTPException 500
       (lit "Unexpected internal server error: connection reset")), 1%nat).
Proof. reflexivity. Qed.

(** ** The original sentence *)

Section Echo.

Variable attempt : pystr -> M ApiResponse.

(** A successful single attempt answers with the sentence it was given. *)
Hypothesis attempt_echoes :
  forall (text : pystr) (n n' : Calls) (r : ApiResponse),
    attempt text n = (Return r, n') -> original_sentence r = text.

Lemma retry_loop_echoes (text : pystr) (max_retries retries : Z) (n : Calls) :
  forall r n',
    retry_loop attempt text max_retries retries n = (Return r, n') ->
    original_sentence r = text.
Proof.
  funelim (retry_loop attempt text max_retries retries n);
    intros r m Hres; try discriminate Hres.
  - injection Hres as <- <-. eapply attempt_echoes; eassumption.
  - eauto.
Qed.

Lemma entry_of_original (text : pystr) (n : Calls) :
  original_sentence
    (entry_of text (fst (exception_wrapper_default attempt text n)))
  = text.
Proof.
  destruct (exception_wrapper_default attempt text n) as [[r|e] n'] eqn:Hw;
    simpl.
  - exact (retry_loop_echoes _ _ _ _ _ _ Hw).
  - destruct e; reflexivity.
Qed.

Lemma batch_loop_originals (texts : list pystr) :
  forall (n n' : Calls) (out : list ApiResponse),
    batch_loop attempt texts [] n = (Return out, n') ->
    List.map original_sentence out = texts.
Proof.
  induction texts as [|text rest IH]; intros n n' out Hout.
  - simpl in Hout. unfold ret in Hout. now injection Hout as <- _.
  - rewrite batch_loop_cons in Hout.
    destruct (blank text); rewrite batch_loop_acc in Hout.
    + destruct (batch_loop attempt rest [] n) as [[o|e] m] eqn:Hrest;
        [|discriminate].
      injection Hout as <- _. simpl. f_equal. exact (IH _ _ _ Hrest).
    + destruct (batch_loop attempt rest [] _) as [[o|e] m] eqn:Hrest;
        [|discriminate].
      injection Hout as <- _. simpl. f_equal.
      * apply entry_of_original.
      * exact (IH _ _ _ Hrest).
Qed.

End Echo.

Lemma get_corrections_echoes
      (chat : Calls -> ChatRequest -> outcome (option ChatResponse))
      (model_validate_json : pystr -> outcome Answer)
      (str_response : option ChatResponse -> pystr)
      (text : pystr) (n n' : Calls) (r : ApiResponse) :
  get_corrections chat model_validate_json str_response text n
  = (Return r, n') ->
  original_sentence r = text.
Proof.
  rewrite get_corrections_table. intros H.
  destruct (chat n (chat_request text)) as [response|e].
  - destruct (response_content response) as [c|]; [|discriminate].
    destruct (model_validate_json c) as [a|e].
    + now injection H as <- _.
    + destruct e; discriminate.
  - destruct e; simpl in H; discriminate.
Qed.

(** ** Batch endpoint *)

(** C4, as stated, fails on the empty batch: the endpoint raises the
    status 400 error of its guard and returns no output sequence. *)
Lemma correct_batch_texts_empty_batch_raises :
  correct_batch_texts
    (get_corrections (flaky_chat 0) sample_validate sample_str_response)
    {| texts := [] |} 0%nat
  = (Raise (HTTPException 400 (lit "Input text list cannot be empty.")), 0%nat)
  /\ ~ (exists out n',
          correct_batch_texts
            (get_corrections (flaky_chat 0) sample_validate sample_str_response)
            {| texts := [] |} 0%nat
          = (Return out, n')
          /\ List.length out = List.length (texts {| texts := [] |})).
Proof.
  split; [reflexivity|].
  intros (out & n' & H & _). discriminate H.
Qed.

(** C4, amended.  For every non-empty batch the endpoint returns an output
    sequence as long as the input, and the [i]-th output carries the
    [i]-th input as its [original_sentence], whether the item was blank,
    failed or succeeded. *)
Theorem correct_batch_texts_preserves_inputs
        (chat : Calls -> ChatRequest -> outcome (option ChatResponse))
        (model_validate_json : pystr -> outcome Answer)
        (str_response : option ChatResponse -> pystr)
        (ts : list pystr) (n : Calls) :
  ts <> [] ->
  exists out n',
    correct_batch_texts
      (get_corrections chat model_validate_json str_response)
      {| texts := ts |} n
    = (Return out, n')
    /\ List.length out = List.length ts
    /\ forall i t,
         nth_error ts i = Some t ->
         exists r, nth_error out i = Some r /\ original_sentence r = t.
Proof.
  intros Hne.
  destruct (batch_loop_total
              (get_corrections chat model_validate_json str_response) ts n)
    as (out & n' & Hout & Hlen).
  exists out, n'. split; [|split].
  - unfold correct_batch_texts. simpl texts.
    destruct ts; [contradiction|exact Hout].
  - exact Hlen.
  - intros i t Hi.
    pose proof (batch_loop_originals
                  (get_corrections chat model_validate_json str_response)
                  (get_corrections_echoes chat model_validate_json str_response)
                  ts n n' out Hout) as Hmap.
    rewrite <- Hmap, nth_error_map in Hi.
    destruct (nth_error out i) as [r|]; [|discriminate].
    exists r. split; [reflexivity|]. simpl in Hi. congruence.
Qed.

Lemma correct_batch_texts_preserves_inputs_witness :
  exists out n',
    correct_batch_texts
      (get_corrections (flaky_chat 1) sample_validate sample_str_response)
      {| texts := [blanks; sentence] |} 0%nat
    = (Return out, n')
    /\ List.length out = 2%nat
    /\ forall i t,
         nth_error [blanks; sentence] i = Some t ->
         exists r, nth_error out i = Some r /\ original_sentence r = t.
Proof.
  apply (correct_batch_texts_preserves_inputs
           (flaky_chat 1) sample_validate sample_str_response
           [blanks; sentence] 0%nat).
  discriminate.
Defined.

(** C5.  A failure of the wrapper on a non-blank item does not abort the
    batch.  Whatever the wrapper raises there is an [HTTPException]; the
    entry at the item's position has no corrections, the item as its
    [original_sentence] and the text [Error: ] followed by the detail of
    the failure as its [correct_sentence]; the items after it are
    processed, and the endpoint returns the full-length list. *)
Theorem correct_batch_texts_isolates_failure
        (attempt : pystr -> M ApiResponse)
        (pre : list pystr) (t : pystr) (post : list pystr)
        (n n1 n2 : Calls) (out1 : list ApiResponse) (e : exn) :
  blank t = false ->
  batch_loop attempt pre [] n = (Return out1, n1) ->
  exception_wrapper_default attempt t n1 = (Raise e, n2) ->
  exists status_code detail out2 n3,
    e = HTTPException status_code detail
    /\ batch_loop attempt post [] n2 = (Return out2, n3)
    /\ correct_batch_texts attempt {| texts := pre ++ t :: post |} n
       = (Return (out1 ++ error_placeholder t detail :: out2), n3)
    /\ nth_error (out1 ++ error_placeholder t detail :: out2) (List.length pre)
       = Some (error_placeholder t detail)
    /\ List.length (out1 ++ error_placeholder t detail :: out2)
       = List.length (pre ++ t :: post).
Proof.
  intros Hblank Hpre Hw.
  destruct (exception_wrapper_raises_http attempt t n1 n2 e Hw)
    as (status_code & detail & ->).
  destruct (batch_loop_total attempt post n2) as (out2 & n3 & Hpost & Hlen2).
  destruct (batch_loop_total attempt pre n) as (out1' & n1' & Hpre' & Hlen1).
  rewrite Hpre in Hpre'. injection Hpre' as <- <-.
  exists status_code, detail, out2, n3.
  split; [reflexivity|]. split; [exact Hpost|]. split; [|split].
  - unfold correct_batch_texts. simpl texts.
    assert (Hrun : batch_loop attempt (pre ++ t :: post) [] n
                   = (Return (out1 ++ error_placeholder t detail :: out2), n3)).
    { apply (batch_loop_app attempt pre (t :: post) n out1 _ n1 n3 Hpre).
      rewrite batch_loop_cons, Hblank, Hw, batch_loop_acc. simpl fst. simpl snd.
      now rewrite Hpost. }
    destruct pre; exact Hrun.
  - rewrite nth_error_app2 by lia.
    now rewrite Hlen1, Nat.sub_diag.
  - rewrite !length_app. simpl. lia.
Qed.

Lemma correct_batch_texts_isolates_failure_witness :
  exists status_code detail out2 n3,
    HTTPException 502 garbled_detail = HTTPException status_code detail
    /\ batch_loop
         (get_corrections garbled_chat sample_validate sample_str_response)
         [blanks; sentence] [] 2%nat
       = (Return out2, n3)
    /\ correct_batch_texts
         (get_corrections garbled_chat sample_validate sample_str_response)
         {| texts := [sentence] ++ sentence :: [blanks; sentence] |} 0%nat
       = (Return ([error_placeholder sentence garbled_detail]
                  ++ error_placeholder sentence detail :: out2), n3)
    /\ nth_error ([error_placeholder sentence garbled_detail]
                  ++ error_placeholder sentence detail :: out2) 1%nat
       = Some (error_placeholder sentence detail)
    /\ List.length ([error_placeholder sentence garbled_detail]
                    ++ error_placeholder sentence detail :: out2)
       = 4%nat.
Proof.
  apply (correct_batch_texts_isolates_failure
           (get_corrections garbled_chat sample_validate sample_str_response)
           [sentence] sentence [blanks; sentence] 0%nat 1%nat 2%nat
           [error_placeholder sentence garbled_detail]
           (HTTPException 502 garbled_detail)).
  - reflexivity.
  - reflexivity.
  - reflexivity.
Defined.

(** C6.  A batch item made of whitespace only (the empty string
    included) is answered without calling the wrapper: the items after it
    start from the call count the items before it left, and the entry at
    its position has the raw input as [original_sentence], no corrections
    and the empty string as [correct_sentence]. *)
Theorem correct_batch_texts_blank_item
        (attempt : pystr -> M ApiResponse)
        (pre : list pystr) (t : pystr) (post : list pystr) (n : Calls) :
  forallb is_space t = true ->
  exists out1 n1 out2 n2,
    batch_loop attempt pre [] n = (Return out1, n1)
    /\ batch_loop attempt (pre ++ [t]) [] n
       = (Return (out1 ++ [blank_placeholder t]), n1)
    /\ batch_loop attempt post [] n1 = (Return out2, n2)
    /\ correct_batch_texts attempt {| texts := pre ++ t :: post |} n
       = (Return (out1 ++ blank_placeholder t :: out2), n2)
    /\ nth_error (out1 ++ blank_placeholder t :: out2) (List.length pre)
       = Some {| corrections := [];
                 correct_sentence := [];
                 original_sentence := t |}.
Proof.
  intros Hspace. apply blank_iff in Hspace.
  destruct (batch_loop_total attempt pre n) as (out1 & n1 & Hpre & Hlen1).
  destruct (batch_loop_total attempt post n1) as (out2 & n2 & Hpost & Hlen2).
  exists out1, n1, out2, n2.
  split; [exact Hpre|]. split; [|split; [exact Hpost|split]].
  - apply (batch_loop_app attempt pre [t] n out1 _ n1 n1 Hpre).
    now rewrite batch_loop_cons, Hspace.
  - unfold correct_batch_texts. simpl texts.
    assert (Hrun : batch_loop attempt (pre ++ t :: post) [] n
                   = (Return (out1 ++ blank_placeholder t :: out2), n2)).
    { apply (batch_loop_app attempt pre (t :: post) n out1 _ n1 n2 Hpre).
      rewrite batch_loop_cons, Hspace, batch_loop_acc.
      now rewrite Hpost. }
    destruct pre; exact Hrun.
  - rewrite nth_error_app2 by lia.
    now rewrite Hlen1, Nat.sub_diag.
Qed.

Lemma correct_batch_texts_blank_item_witness :
  forallb is_space blanks = true
  /\ exists out1 n1 out2 n2,
       batch_loop
         (get_corrections (flaky_chat 0) sample_validate sample_str_response)
         [sentence] [] 0%nat
       = (Return out1, n1)
       /\ batch_loop
            (get_corrections (flaky_chat 0) sample_validate sample_str_response)
            ([sentence] ++ [blanks]) [] 0%nat
          = (Return (out1 ++ [blank_placeholder blanks]), n1)
       /\ batch_loop
            (get_corrections (flaky_chat 0) sample_validate sample_str_response)
            [sentence] [] n1
          = (Return out2, n2)
       /\ correct_batch_texts
            (get_corrections (flaky_chat 0) sample_validate sample_str_response)
            {| texts := [sentence] ++ blanks :: [sentence] |} 0%nat
          = (Return (out1 ++ blank_placeholder blanks :: out2), n2)
       /\ nth_error (out1 ++ blank_placeholder blanks :: out2) 1%nat
          = Some {| corrections := [];
                    correct_sentence := [];
                    original_sentence := blanks |}.
Proof.
  split; [reflexivity|].
  apply (correct_batch_texts_blank_item
           (get_corrections (flaky_chat 0) sample_validate sample_str_response)
           [sentence] blanks [sentence] 0%nat).
  reflexivity.
Defined.

(** ** Classification of failures and the successful path *)

(** C7, as stated, fails when the call to the service raises a
    [ValueError].  Such an exception is not a [ResponseError] and no
    payload was parsed or validated, so the claim files it under any
    other exception, with status 500; the handler of [get_corrections]
    tests [isinstance(e, ValueError)] first and answers with status 502. *)
Lemma get_corrections_call_value_error_is_502 :
  get_corrections value_error_chat sample_validate sample_str_response
    sentence 0%nat
  = (Raise (HTTPException 502
       (lit "Bad response from correction service: Invalid format")), 1%nat)
  /\ ~ (forall chat model_validate_json str_response text n e,
          chat n (chat_request text) = Raise e ->
          (forall error sc, e <> ResponseError error sc) ->
          exists detail,
            fst (get_corrections chat model_validate_json str_response text n)
            = Raise (HTTPException 500 detail)).
Proof.
  split; [reflexivity|].
  intros Hclaim.
  destruct (Hclaim value_error_chat sample_validate sample_str_response
              sentence 0%nat (ValueError (lit "Invalid format")) eq_refl)
    as (detail & Hdetail).
  - intros error sc. discriminate.
  - discriminate Hdetail.
Qed.

(** C7, amended.  One attempt classifies its failures as follows.  A
    [ResponseError] of the service becomes status 503, which the wrapper
    retries.  A [ValueError] becomes status 502, which the wrapper does not
    retry: that is the case of a response without message or content, of a
    payload the validator rejects (as invalid JSON or as not matching the
    schema), and of a [ValueError] raised by the call.  Any other
    exception becomes status 500, which the wrapper does not retry.  No
    other failure leaves [get_corrections]. *)
Theorem get_corrections_classification
        (chat : Calls -> ChatRequest -> outcome (option ChatResponse))
        (model_validate_json : pystr -> outcome Answer)
        (str_response : option ChatResponse -> pystr)
        (text : pystr) (n : Calls) :
  (forall error sc,
      chat n (chat_request text) = Raise (ResponseError error sc) ->
      get_corrections chat model_validate_json str_response text n
      = (Raise (HTTPException 503 (lit "Ollama service error: " ++ error)),
         S n))
  /\ (forall response,
        chat n (chat_request text) = Return response ->
        response_content response = None ->
        get_corrections chat model_validate_json str_response text n
        = (Raise (HTTPException 502
             (lit "Bad response from correction service: "
              ++ lit "Unexpected Ollama response structure: "
              ++ str_response response)), S n))
  /\ (forall response c e,
        chat n (chat_request text) = Return response ->
        response_content response = Some c ->
        model_validate_json c = Raise e ->
        get_corrections chat model_validate_json str_response text n
        = (Raise (HTTPException 502
             (lit "Bad response from correction service: "
              ++ (match e with
                  | JSONDecodeError _ =>
                      lit "Ollama response was not valid JSON: "
                  | _ =>
                      lit "Ollama response did not match expected format: "
                  end) ++ c)), S n))
  /\ (forall e,
        chat n (chat_request text) = Raise e ->
        isinstance_ValueError e = true ->
        get_corrections chat model_validate_json str_response text n
        = (Raise (HTTPException 502
             (lit "Bad response from correction service: " ++ str_exn e)),
           S n))
  /\ (forall e,
        chat n (chat_request text) = Raise e ->
        (forall error sc, e <> ResponseError error sc) ->
        isinstance_ValueError e = false ->
        get_corrections chat model_validate_json str_response text n
        = (Raise (HTTPException 500
             (lit "Internal server error during correction: " ++ str_exn e)),
           S n))
  /\ (forall e n',
        get_corrections chat model_validate_json str_response text n
        = (Raise e, n') ->
        exists status_code detail,
          e = HTTPException status_code detail
          /\ (status_code = 503 \/ status_code = 502 \/ status_code = 500))
  /\ retryable 503 = true /\ retryable 502 = false /\ retryable 500 = false.
Proof.
  rewrite get_corrections_table.
  repeat split.
  - intros error sc ->. reflexivity.
  - intros response -> ->. reflexivity.
  - intros response c e -> -> ->. destruct e; reflexivity.
  - intros e -> He. destruct e; try discriminate He; reflexivity.
  - intros e -> Hne He.
    destruct e; try discriminate He; try reflexivity.
    now elim (Hne error status_code).
  - intros e n' H.
    destruct (chat n (chat_request text)) as [response|e0].
    + destruct (response_content response) as [c|].
      * destruct (model_validate_json c) as [a|e1]; [discriminate|].
        destruct e1; injection H as <- _; eauto 6.
      * injection H as <- _; eauto 6.
    + destruct e0; simpl in H; injection H as <- _; eauto 6.
Qed.

Lemma get_corrections_classification_witness :
  get_corrections down_chat sample_validate sample_str_response sentence 0%nat
  = (Raise (HTTPException 503
       (lit "Ollama service error: " ++ lit "model is loading")), 1%nat).
Proof.
  apply (proj1 (get_corrections_classification
                  down_chat sample_validate sample_str_response
                  sentence 0%nat)
           (lit "model is loading") 503).
  reflexivity.
Defined.

(** C8.  When an attempt succeeds, the service answered with a non-empty
    content that the validator accepted, and the dictionary returned
    carries the input text, untouched, as [original_sentence] and the two
    fields of the validated answer, unchanged. *)
Theorem get_corrections_success_fields
        (chat : Calls -> ChatRequest -> outcome (option ChatResponse))
        (model_validate_json : pystr -> outcome Answer)
        (str_response : option ChatResponse -> pystr)
        (text : pystr) (n n' : Calls) (r : ApiResponse) :
  get_corrections chat model_validate_json str_response text n
  = (Return r, n') ->
  exists response c a,
    chat n (chat_request text) = Return response
    /\ response_content response = Some c
    /\ model_validate_json c = Return a
    /\ original_sentence r = text
    /\ corrections r = answer_corrections a
    /\ correct_sentence r = answer_correct_sentence a.
Proof.
  rewrite get_corrections_table. intros H.
  destruct (chat n (chat_request text)) as [response|e].
  - destruct (response_content response) as [c|] eqn:Hc; [|discriminate].
    destruct (model_validate_json c) as [a|e] eqn:Ha.
    + injection H as <- _. exists response, c, a. now repeat split.
    + destruct e; discriminate.
  - destruct e; simpl in H; discriminate.
Qed.

Lemma get_corrections_success_fields_witness :
  exists response c a,
    flaky_chat 0 0%nat (chat_request sentence) = Return response
    /\ response_content response = Some c
    /\ sample_validate c = Return a
    /\ original_sentence
         {| corrections := [];
            correct_sentence := lit "I have an apple.";
            original_sentence := sentence |} = sentence
    /\ @nil Correction = answer_corrections a
    /\ lit "I have an apple." = answer_correct_sentence a.
Proof.
  apply (get_corrections_success_fields
           (flaky_chat 0) sample_validate sample_str_response
           sentence 0%nat 1%nat
           {| corrections := [];
              correct_sentence := lit "I have an apple.";
              original_sentence := sentence |}).
  reflexivity.
Defined.

(** Conversely, a non-empty content that validates is a success. *)
Lemma get_corrections_succeeds
      (chat : Calls -> ChatRequest -> outcome (option ChatResponse))
      (model_validate_json : pystr -> outcome Answer)
      (str_response : option ChatResponse -> pystr)
      (text : pystr) (n : Calls)
      (response : option ChatResponse) (c : pystr) (a : Answer) :
  chat n (chat_request text) = Return response ->
  response_content response = Some c ->
  model_validate_json c = Return a ->
  get_corrections chat model_validate_json str_response text n
  = (Return {| corrections := answer_corrections a;
               correct_sentence := answer_correct_sentence a;
               original_sentence := text |}, S n).
Proof.
  intros Hchat Hc Ha. now rewrite get_corrections_table, Hchat, Hc, Ha.
Qed.

(** ** Single endpoint *)

(** C9.  The empty text is rejected with status 400, whatever the single
    attempt is, and the call count is left as it was. *)
Theorem correct_single_text_empty
        (attempt : pystr -> M ApiResponse) (n : Calls) :
  correct_single_text attempt {| text := [] |} n
  = (Raise (HTTPException 400 (lit "Input text cannot be empty.")), n).
Proof. reflexivity. Qed.

(** C10.  So is every text made of whitespace only. *)
Theorem correct_single_text_whitespace
        (attempt : pystr -> M ApiResponse) (t : pystr) (n : Calls) :
  forallb is_space t = true ->
  correct_single_text attempt {| text := t |} n
  = (Raise (HTTPException 400 (lit "Input text cannot be empty.")), n).
Proof.
  intros Hspace. apply blank_iff in Hspace.
  unfold correct_single_text. cbn [text].
  unfold blank in Hspace. now rewrite Hspace.
Qed.

Lemma correct_single_text_whitespace_witness :
  forallb is_space blanks = true
  /\ correct_single_text
       (get_corrections (flaky_chat 0) sample_validate sample_str_response)
       {| text := blanks |} 0%nat
     = (Raise (HTTPException 400 (lit "Input text cannot be empty.")), 0%nat).
Proof.
  split; [reflexivity|].
  apply (correct_single_text_whitespace
           (get_corrections (flaky_chat 0) sample_validate sample_str_response)
           blanks 0%nat).
  reflexivity.
Defined.

(** * Further properties of the code *)

(** ** How the retry loop can end *)

Section ControllerCases.

Variable attempt : pystr -> M ApiResponse.

Hypothesis attempt_ticks :
  forall (text : pystr) (n : Calls), snd (attempt text n) = S n.

(** A retried failure moves the loop to the next iteration. *)
Lemma retry_loop_retries (text : pystr) (max_retries retries : Z)
      (n : Calls) (e : exn) :
  retries < max_retries ->
  fst (attempt text n) = Raise e ->
  retried e = true ->
  retry_loop attempt text max_retries retries n
  = retry_loop attempt text max_retries (retries + 1) (S n).
Proof.
  intros Hlt He Hr. rewrite retry_loop_step.
  destruct (Z.ltb_spec retries max_retries); [|lia].
  rewrite (attempt_outcome attempt attempt_ticks), He.
  destruct e as [| | |status_code detail|]; try discriminate Hr.
  simpl in Hr. rewrite Hr.
  destruct (Z.gtb_spec (retries + 1) max_retries); [lia|reflexivity].
Qed.

(** The loop ends in one of three ways: a success, a failure that is not
    retried, or the fall through after [max_retries - retries] retried
    failures. *)
Lemma retry_loop_cases (text : pystr) (max_retries : Z) :
  forall (m : nat) (retries : Z) (n : Calls),
    m = Z.to_nat (max_retries - retries) ->
    exists k,
      (k <= m)%nat
      /\ (forall j, (j < k)%nat ->
            exists e, fst (attempt text (n + j)%nat) = Raise e
                      /\ retried e = true)
      /\ (((k < m)%nat
           /\ ((exists d,
                  fst (attempt text (n + k)%nat) = Return d
                  /\ retry_loop attempt text max_retries retries n
                     = (Return d, S (n + k)))
               \/ (exists e,
                     fst (attempt text (n + k)%nat) = Raise e
                     /\ retried e = false
                     /\ retry_loop attempt text max_retries retries n
                        = (Raise (surfaced e), S (n + k)))))
          \/ (k = m
              /\ retry_loop attempt text max_retries retries n
                 = (Raise exhausted_without_error, (n + m)%nat))).
Proof.
  induction m as [|m IH]; intros retries n Hm.
  - exists 0%nat. split; [lia|]. split; [intros j Hj; lia|].
    right. split; [reflexivity|].
    rewrite retry_loop_step.
    destruct (Z.ltb_spec retries max_retries); [lia|].
    now rewrite Nat.add_0_r.
  - assert (Hlt : retries < max_retries) by lia.
    destruct (fst (attempt text n)) as [d|e] eqn:Hfst.
    + exists 0%nat. split; [lia|]. split; [intros j Hj; lia|].
      left. split; [lia|]. left. exists d.
      rewrite Nat.add_0_r. split; [exact Hfst|].
      rewrite retry_loop_step.
      destruct (Z.ltb_spec retries max_retries); [|lia].
      now rewrite (attempt_outcome attempt attempt_ticks), Hfst.
    + destruct (retried e) eqn:Hr.
      * destruct (IH (retries + 1) (S n) ltac:(lia))
          as (k & Hk & Hfail & Hend).
        exists (S k). split; [lia|]. split.
        { intros j Hj. destruct j as [|j].
          - rewrite Nat.add_0_r. eauto.
          - replace (n + S j)%nat with (S n + j)%nat by lia.
            apply Hfail. lia. }
        rewrite (retry_loop_retries text max_retries retries n e Hlt Hfst Hr).
        replace (n + S k)%nat with (S n + k)%nat by lia.
        replace (n + S m)%nat with (S n + m)%nat by lia.
        destruct Hend as [(Hkm & Hend) | (-> & Hend)].
        { left. split; [lia|exact Hend]. }
        { right. split; [reflexivity|exact Hend]. }
      * exists 0%nat. split; [lia|]. split; [intros j Hj; lia|].
        left. split; [lia|]. right. exists e.
        rewrite Nat.add_0_r. split; [exact Hfst|]. split; [exact Hr|].
        exact (retry_loop_gives_up attempt attempt_ticks text
                 max_retries retries n e Hlt Hfst Hr).
Qed.

End ControllerCases.

(** ** The wrapper over any single attempt *)

(** X1.  The wrapper absorbs failures with status 503 or 504 as long as
    fewer than [max_retries] of them occur in a row: after [k] such
    failures, [k] below [max_retries], the success of the next attempt is
    returned and the single attempt has been invoked [k + 1] times. *)
Theorem exception_wrapper_absorbs_retried_failures
        (attempt : pystr -> M ApiResponse) (text : pystr) (max_retries : Z)
        (n : Calls) (k : nat) (d : ApiResponse) :
  (forall t i, snd (attempt t i) = S i) ->
  Z.of_nat k < max_retries ->
  (forall j, (j < k)%nat ->
     exists status_code detail,
       fst (attempt text (n + j)%nat)
       = Raise (HTTPException status_code detail)
       /\ (status_code = 503 \/ status_code = 504)) ->
  fst (attempt text (n + k)%nat) = Return d ->
  exception_wrapper attempt text max_retries n
  = (Return d, (n + k + 1)%nat).
Proof.
  intros Hticks Hk Hfail Hok. unfold exception_wrapper.
  rewrite (retry_loop_returns attempt Hticks text max_retries d k 0 n).
  - f_equal. lia.
  - lia.
  - intros j Hj. destruct (Hfail j Hj) as (sc & detail & He & Hsc).
    exists (HTTPException sc detail). split; [exact He|].
    simpl. unfold retryable. destruct Hsc as [-> | ->]; reflexivity.
  - exact Hok.
Qed.

Lemma exception_wrapper_absorbs_retried_failures_witness :
  exception_wrapper slow_attempt sentence default_max_retries 0%nat
  = (Return {| corrections := [];
               correct_sentence := sentence;
               original_sentence := sentence |}, (0 + 2 + 1)%nat).
Proof.
  apply (exception_wrapper_absorbs_retried_failures
           slow_attempt sentence default_max_retries 0%nat 2%nat).
  - intros t i. unfold slow_attempt. destruct (i <? 2)%nat; reflexivity.
  - unfold default_max_retries. lia.
  - intros j Hj.
    do 2 (destruct j as [|j];
          [exists 504, (lit "Gateway Timeout"); split; [reflexivity|now right]|]).
    lia.
  - reflexivity.
Defined.

(** X2.  With [max_retries] zero or negative the wrapper makes no attempt
    at all: the loop body never runs and the error after the loop is
    raised. *)
Theorem exception_wrapper_no_budget
        (attempt : pystr -> M ApiResponse) (text : pystr) (max_retries : Z)
        (n : Calls) :
  max_retries <= 0 ->
  exception_wrapper attempt text max_retries n
  = (Raise exhausted_without_error, n).
Proof.
  intros Hmr. unfold exception_wrapper. rewrite retry_loop_step.
  destruct (Z.ltb_spec 0 max_retries); [lia|reflexivity].
Qed.

Lemma exception_wrapper_no_budget_witness :
  exception_wrapper
    (get_corrections (flaky_chat 0) sample_validate sample_str_response)
    sentence 0 7%nat
  = (Raise exhausted_without_error, 7%nat).
Proof.
  apply (exception_wrapper_no_budget
           (get_corrections (flaky_chat 0) sample_validate sample_str_response)
           sentence 0 7%nat).
  lia.
Defined.

(** X3.  Whatever the single attempt does, the wrapper invokes it at most
    [max_retries] times. *)
Theorem exception_wrapper_call_bound
        (attempt : pystr -> M ApiResponse) (text : pystr) (max_retries : Z)
        (n : Calls) :
  (forall t i, snd (attempt t i) = S i) ->
  (n <= snd (exception_wrapper attempt text max_retries n)
   <= n + Z.to_nat max_retries)%nat.
Proof.
  intros Hticks. unfold exception_wrapper.
  destruct (retry_loop_cases attempt Hticks text max_retries
              (Z.to_nat max_retries) 0 n ltac:(f_equal; lia))
    as (k & Hk & _ & [(Hkm & [(d & _ & ->) | (e & _ & _ & ->)]) | (_ & ->)]);
    simpl; lia.
Qed.

Lemma exception_wrapper_call_bound_witness :
  (0 <= snd (exception_wrapper crashing_attempt sentence 5 0%nat)
   <= 0 + Z.to_nat 5)%nat.
Proof.
  apply (exception_wrapper_call_bound crashing_attempt sentence 5 0%nat).
  intros t i. reflexivity.
Defined.

(** X4.  The wrapper never hands a status it retries to its caller:
    whatever it raises is an [HTTPException] whose status is neither 503
    nor 504. *)
Theorem exception_wrapper_never_raises_retried
        (attempt : pystr -> M ApiResponse) (text : pystr) (max_retries : Z)
        (n n' : Calls) (e : exn) :
  (forall t i, snd (attempt t i) = S i) ->
  exception_wrapper attempt text max_retries n = (Raise e, n') ->
  exists status_code detail,
    e = HTTPException status_code detail
    /\ status_code <> 503 /\ status_code <> 504.
Proof.
  intros Hticks. unfold exception_wrapper.
  destruct (retry_loop_cases attempt Hticks text max_retries
              (Z.to_nat max_retries) 0 n ltac:(f_equal; lia))
    as (k & Hk & _ & [(Hkm & [(d & _ & ->) | (e0 & _ & Hr & ->)]) | (_ & ->)]);
    intros H; [discriminate H| |].
  - injection H as <- _.
    destruct e0 as [| | |status_code detail|]; simpl;
      try (eexists _, _; split; [reflexivity|split; discriminate]).
    exists status_code, detail. split; [reflexivity|].
    simpl in Hr. unfold retryable in Hr.
    apply orb_false_iff in Hr. destruct Hr as [H3 H4].
    apply Z.eqb_neq in H3, H4. now split.
  - injection H as <- _. unfold exhausted_without_error.
    eexists _, _. split; [reflexivity|split; discriminate].
Qed.

Lemma exception_wrapper_never_raises_retried_witness :
  exists status_code detail,
    exhausted_without_error = HTTPException status_code detail
    /\ status_code <> 503 /\ status_code <> 504.
Proof.
  apply (exception_wrapper_never_raises_retried
           (get_corrections down_chat sample_validate sample_str_response)
           sentence default_max_retries 0%nat 5%nat exhausted_without_error).
  - intros t i. reflexivity.
  - reflexivity.
Defined.

(** X5.  What the wrapper returns is what its last invocation of the
    single attempt returned, and every invocation before that one failed
    with a status the wrapper retries. *)
Theorem exception_wrapper_return_sound
        (attempt : pystr -> M ApiResponse) (text : pystr) (max_retries : Z)
        (n n' : Calls) (d : ApiResponse) :
  (forall t i, snd (attempt t i) = S i) ->
  exception_wrapper attempt text max_retries n = (Return d, n') ->
  exists k,
    Z.of_nat k < max_retries
    /\ n' = (n + k + 1)%nat
    /\ fst (attempt text (n + k)%nat) = Return d
    /\ forall j, (j < k)%nat ->
         exists status_code detail,
           fst (attempt text (n + j)%nat)
           = Raise (HTTPException status_code detail)
           /\ (status_code = 503 \/ status_code = 504).
Proof.
  intros Hticks. unfold exception_wrapper.
  destruct (retry_loop_cases attempt Hticks text max_retries
              (Z.to_nat max_retries) 0 n ltac:(f_equal; lia))
    as (k & Hk & Hfail
        & [(Hkm & [(d0 & Hd & ->) | (e0 & _ & _ & ->)]) | (_ & ->)]);
    intros H; try discriminate H.
  injection H as <- <-.
  exists k. split; [lia|]. split; [lia|]. split; [exact Hd|].
  intros j Hj. destruct (Hfail j Hj) as (e & He & Hr).
  destruct e as [| | |status_code detail|]; try discriminate Hr.
  exists status_code, detail. split; [exact He|].
  simpl in Hr. unfold retryable in Hr.
  apply orb_true_iff in Hr. destruct Hr as [H3 | H4];
    [left | right]; now apply Z.eqb_eq.
Qed.

Lemma exception_wrapper_return_sound_witness :
  exists k,
    Z.of_nat k < default_max_retries
    /\ 3%nat = (0 + k + 1)%nat
    /\ fst (get_corrections (flaky_chat 2) sample_validate sample_str_response
              sentence (0 + k)%nat)
       = Return {| corrections := [];
                   correct_sentence := lit "I have an apple.";
                   original_sentence := sentence |}
    /\ forall j, (j < k)%nat ->
         exists status_code detail,
           fst (get_corrections (flaky_chat 2) sample_validate
                  sample_str_response sentence (0 + j)%nat)
           = Raise (HTTPException status_code detail)
           /\ (status_code = 503 \/ status_code = 504).
Proof.
  apply (exception_wrapper_return_sound
           (get_corrections (flaky_chat 2) sample_validate sample_str_response)
           sentence default_max_retries 0%nat 3%nat).
  - intros t i. apply get_corrections_ticks.
  - reflexivity.
Defined.

(** X6.  A failure the wrapper does not retry ends it at whichever
    attempt it occurs: after [k] failures with status 503 or 504, [k]
    below [max_retries], such a failure is raised to the caller (an
    [HTTPException] as it is, any other exception as a status 500 error)
    and the single attempt has been invoked [k + 1] times. *)
Theorem exception_wrapper_gives_up_late
        (attempt : pystr -> M ApiResponse) (text : pystr) (max_retries : Z)
        (n : Calls) (k : nat) (e : exn) :
  (forall t i, snd (attempt t i) = S i) ->
  Z.of_nat k < max_retries ->
  (forall j, (j < k)%nat ->
     exists status_code detail,
       fst (attempt text (n + j)%nat)
       = Raise (HTTPException status_code detail)
       /\ (status_code = 503 \/ status_code = 504)) ->
  fst (attempt text (n + k)%nat) = Raise e ->
  retried e = false ->
  exception_wrapper attempt text max_retries n
  = (Raise (surfaced e), (n + k + 1)%nat).
Proof.
  intros Hticks. unfold exception_wrapper.
  assert (Hgen : forall (k : nat) (retries : Z) (n : Calls),
             retries + Z.of_nat k < max_retries ->
             (forall j, (j < k)%nat ->
                exists status_code detail,
                  fst (attempt text (n + j)%nat)
                  = Raise (HTTPException status_code detail)
                  /\ (status_code = 503 \/ status_code = 504)) ->
             fst (attempt text (n + k)%nat) = Raise e ->
             retried e = false ->
             retry_loop attempt text max_retries retries n
             = (Raise (surfaced e), (n + k + 1)%nat)).
  { clear k n. induction k as [|k IH]; intros retries n Hk Hfail He Hr.
    - rewrite Nat.add_0_r in He.
      rewrite (retry_loop_gives_up attempt Hticks text max_retries retries
                 n e ltac:(lia) He Hr).
      unfold surfaced. f_equal. lia.
    - destruct (Hfail 0%nat ltac:(lia)) as (sc & detail & H0 & Hsc).
      rewrite Nat.add_0_r in H0.
      rewrite (retry_loop_retries attempt Hticks text max_retries retries n
                 (HTTPException sc detail) ltac:(lia) H0).
      + rewrite (IH (retries + 1) (S n)).
        * f_equal. lia.
        * lia.
        * intros j Hj. replace (S n + j)%nat with (n + S j)%nat by lia.
          apply Hfail. lia.
        * replace (S n + k)%nat with (n + S k)%nat by lia. exact He.
        * exact Hr.
      + simpl. unfold retryable. destruct Hsc as [-> | ->]; reflexivity. }
  intros Hk Hfail He Hr. apply Hgen; [lia|assumption..].
Qed.

Lemma exception_wrapper_gives_up_late_witness :
  exception_wrapper timing_out_attempt sentence default_max_retries 0%nat
  = (Raise (surfaced (ValueError (lit "bad value"))), (0 + 2 + 1)%nat).
Proof.
  apply (exception_wrapper_gives_up_late
           timing_out_attempt sentence default_max_retries 0%nat 2%nat
           (ValueError (lit "bad value"))).
  - intros t i. unfold timing_out_attempt. destruct (i <? 2)%nat; reflexivity.
  - unfold default_max_retries. lia.
  - intros j Hj.
    do 2 (destruct j as [|j];
          [exists 504, (lit "Gateway Timeout"); split; [reflexivity|now right]|]).
    lia.
  - reflexivity.
  - reflexivity.
Defined.

(** ** The single attempt and the wrapper over it *)

(** Whatever [get_corrections] raises is an [HTTPException] with status
    503, 502 or 500. *)
Lemma get_corrections_raises
      (chat : Calls -> ChatRequest -> outcome (option ChatResponse))
      (model_validate_json : pystr -> outcome Answer)
      (str_response : option ChatResponse -> pystr)
      (text : pystr) (n : Calls) (e : exn) :
  fst (get_corrections chat model_validate_json str_response text n)
  = Raise e ->
  exists status_code detail,
    e = HTTPException status_code detail
    /\ (status_code = 503 \/ status_code = 502 \/ status_code = 500).
Proof.
  rewrite get_corrections_table. simpl fst. intros H.
  destruct (chat n (chat_request text)) as [response|e0].
  - destruct (response_content response) as [c|].
    + destruct (model_validate_json c) as [a|e1]; [discriminate|].
      destruct e1; injection H as <-; eauto 6.
    + injection H as <-; eauto 6.
  - destruct e0; simpl in H; injection H as <-; eauto 6.
Qed.

(** X7.  A message whose content is the empty string counts as a
    malformed response: the attempt fails with status 502 and the
    validator is not consulted, whatever it would have said. *)
Theorem get_corrections_empty_content
        (chat : Calls -> ChatRequest -> outcome (option ChatResponse))
        (model_validate_json : pystr -> outcome Answer)
        (str_response : option ChatResponse -> pystr)
        (text : pystr) (n : Calls) (r : ChatResponse) :
  chat n (chat_request text) = Return (Some r) ->
  message r = Some {| content := Some [] |} ->
  get_corrections chat model_validate_json str_response text n
  = (Raise (HTTPException 502
       (lit "Bad response from correction service: "
        ++ lit "Unexpected Ollama response structure: "
        ++ str_response (Some r))), S n).
Proof.
  intros Hchat Hmsg. rewrite get_corrections_table, Hchat.
  unfold response_content. now rewrite Hmsg.
Qed.

Lemma get_corrections_empty_content_witness :
  get_corrections silent_chat (fun _ => Return sample_answer)
    sample_str_response sentence 0%nat
  = (Raise (HTTPException 502
       (lit "Bad response from correction service: "
        ++ lit "Unexpected Ollama response structure: "
        ++ sample_str_response
             (Some {| message := Some {| content := Some [] |} |}))), 1%nat).
Proof.
  apply (get_corrections_empty_content
           silent_chat (fun _ => Return sample_answer) sample_str_response
           sentence 0%nat {| message := Some {| content := Some [] |} |}).
  - reflexivity.
  - reflexivity.
Defined.

(** X8.  Over [get_corrections] the wrapper never raises status 503: an
    error it raises has status 502 or 500, however the service and the
    validator behave. *)
Theorem exception_wrapper_service_statuses
        (chat : Calls -> ChatRequest -> outcome (option ChatResponse))
        (model_validate_json : pystr -> outcome Answer)
        (str_response : option ChatResponse -> pystr)
        (text : pystr) (max_retries : Z) (n n' : Calls) (e : exn) :
  exception_wrapper
    (get_corrections chat model_validate_json str_response)
    text max_retries n
  = (Raise e, n') ->
  exists status_code detail,
    e = HTTPException status_code detail
    /\ (status_code = 502 \/ status_code = 500).
Proof.
  unfold exception_wrapper.
  destruct (retry_loop_cases
              (get_corrections chat model_validate_json str_response)
              (get_corrections_ticks chat model_validate_json str_response)
              text max_retries (Z.to_nat max_retries) 0 n
              ltac:(f_equal; lia))
    as (k & Hk & _ & [(Hkm & [(d & _ & ->) | (e0 & He0 & Hr & ->)]) | (_ & ->)]);
    intros H; [discriminate H| |].
  - injection H as <- _.
    destruct (get_corrections_raises _ _ _ _ _ _ He0)
      as (sc & detail & -> & [-> | [-> | ->]]).
    + discriminate Hr.
    + exists 502, detail. split; [reflexivity|now left].
    + exists 500, detail. split; [reflexivity|now right].
  - injection H as <- _. unfold exhausted_without_error.
    eexists 500, _. split; [reflexivity|now right].
Qed.

Lemma exception_wrapper_service_statuses_witness :
  exists status_code detail,
    exhausted_without_error = HTTPException status_code detail
    /\ (status_code = 502 \/ status_code = 500).
Proof.
  apply (exception_wrapper_service_statuses
           down_chat sample_validate sample_str_response
           sentence default_max_retries 0%nat 5%nat exhausted_without_error).
  reflexivity.
Defined.

(** ** Single endpoint *)

(** The endpoint is its guard followed by the wrapper: the handler for
    exceptions other than [HTTPException] has nothing to catch. *)
Lemma correct_single_text_unfold
      (attempt : pystr -> M ApiResponse) (input_data : TextInput) (n : Calls) :
  correct_single_text attempt input_data n
  = if blank (text input_data)
    then (Raise (HTTPException 400 (lit "Input text cannot be empty.")), n)
    else exception_wrapper attempt (text input_data) default_max_retries n.
Proof.
  unfold correct_single_text, blank.
  destruct (negb (truthy (strip (text input_data)))); [reflexivity|].
  unfold try_except, bind, ret, exception_wrapper_default.
  destruct (exception_wrapper attempt (text input_data) default_max_retries n)
    as [[r|e] n'] eqn:Hw; [reflexivity|].
  destruct (retry_loop_raises_http attempt (text input_data)
              default_max_retries 0 n e n' Hw)
    as (sc & detail & ->).
  reflexivity.
Qed.

(** X9.  For a text that is not blank the single endpoint answers exactly
    as the wrapper with the default budget does, result and calls alike:
    the wrapper raises nothing but [HTTPException], so the endpoint's
    last handler never replaces an error. *)
Theorem correct_single_text_passes_through
        (attempt : pystr -> M ApiResponse) (t : pystr) (n : Calls) :
  blank t = false ->
  correct_single_text attempt {| text := t |} n
  = exception_wrapper attempt t default_max_retries n.
Proof.
  intros Hblank. rewrite correct_single_text_unfold. cbn [text].
  now rewrite Hblank.
Qed.

Lemma correct_single_text_passes_through_witness :
  correct_single_text crashing_attempt {| text := sentence |} 0%nat
  = exception_wrapper crashing_attempt sentence default_max_retries 0%nat.
Proof.
  apply (correct_single_text_passes_through crashing_attempt sentence 0%nat).
  reflexivity.
Defined.

(** X10.  The errors of the single endpoint over [get_corrections]: status
    400 with no call for a blank text, status 502 or 500 otherwise; never
    503. *)
Theorem correct_single_text_statuses
        (chat : Calls -> ChatRequest -> outcome (option ChatResponse))
        (model_validate_json : pystr -> outcome Answer)
        (str_response : option ChatResponse -> pystr)
        (input_data : TextInput) (n n' : Calls) (e : exn) :
  correct_single_text
    (get_corrections chat model_validate_json str_response) input_data n
  = (Raise e, n') ->
  (blank (text input_data) = true
   /\ e = HTTPException 400 (lit "Input text cannot be empty.")
   /\ n' = n)
  \/ (blank (text input_data) = false
      /\ exists status_code detail,
           e = HTTPException status_code detail
           /\ (status_code = 502 \/ status_code = 500)).
Proof.
  rewrite correct_single_text_unfold.
  destruct (blank (text input_data)); intros H.
  - left. injection H as <- <-. now repeat split.
  - right. split; [reflexivity|].
    unfold exception_wrapper in H.
    destruct (retry_loop_cases
                (get_corrections chat model_validate_json str_response)
                (get_corrections_ticks chat model_validate_json str_response)
                (text input_data) default_max_retries
                (Z.to_nat default_max_retries) 0 n eq_refl)
      as (k & Hk & _
          & [(Hkm & [(d & _ & Hl) | (e0 & He0 & Hr & Hl)]) | (_ & Hl)]);
      rewrite Hl in H; [discriminate H| |].
    + injection H as <- _.
      destruct (get_corrections_raises _ _ _ _ _ _ He0)
        as (sc & detail & -> & [-> | [-> | ->]]).
      * discriminate Hr.
      * exists 502, detail. split; [reflexivity|now left].
      * exists 500, detail. split; [reflexivity|now right].
    + injection H as <- _. unfold exhausted_without_error.
      eexists 500, _. split; [reflexivity|now right].
Qed.

Lemma correct_single_text_statuses_witness :
  (blank sentence = true
   /\ HTTPException 502 garbled_detail
      = HTTPException 400 (lit "Input text cannot be empty.")
   /\ 1%nat = 0%nat)
  \/ (blank sentence = false
      /\ exists status_code detail,
           HTTPException 502 garbled_detail
           = HTTPException status_code detail
           /\ (status_code = 502 \/ status_code = 500)).
Proof.
  apply (correct_single_text_statuses
           garbled_chat sample_validate sample_str_response
           {| text := sentence |} 0%nat 1%nat
           (HTTPException 502 garbled_detail)).
  reflexivity.
Defined.

(** X11.  When the single endpoint over [get_corrections] returns a
    record, the text was not blank, the record is what the last attempt
    produced, its [original_sentence] is the text of the request, and
    between one and five calls were made. *)
Theorem correct_single_text_success
        (chat : Calls -> ChatRequest -> outcome (option ChatResponse))
        (model_validate_json : pystr -> outcome Answer)
        (str_response : option ChatResponse -> pystr)
        (input_data : TextInput) (n n' : Calls) (r : ApiResponse) :
  correct_single_text
    (get_corrections chat model_validate_json str_response) input_data n
  = (Return r, n') ->
  blank (text input_data) = false
  /\ original_sentence r = text input_data
  /\ (n < n' <= n + 5)%nat
  /\ get_corrections chat model_validate_json str_response
       (text input_data) (n' - 1)%nat
     = (Return r, n').
Proof.
  rewrite correct_single_text_unfold.
  destruct (blank (text input_data)); intros H; [discriminate H|].
  split; [reflexivity|].
  split; [exact (retry_loop_echoes _
                   (get_corrections_echoes chat model_validate_json
                      str_response) _ _ _ _ _ _ H)|].
  unfold exception_wrapper in H.
  destruct (retry_loop_cases
              (get_corrections chat model_validate_json str_response)
              (get_corrections_ticks chat model_validate_json str_response)
              (text input_data) default_max_retries
              (Z.to_nat default_max_retries) 0 n eq_refl)
    as (k & Hk & _
        & [(Hkm & [(d & Hd & Hl) | (e0 & _ & _ & Hl)]) | (_ & Hl)]);
    rewrite Hl in H; try discriminate H.
  injection H as <- <-.
  assert (H5 : Z.to_nat default_max_retries = 5%nat) by reflexivity.
  split; [lia|].
  replace (S (n + k) - 1)%nat with (n + k)%nat by lia.
  rewrite (attempt_outcome _
             (get_corrections_ticks chat model_validate_json str_response)).
  now rewrite Hd.
Qed.

Lemma correct_single_text_success_witness :
  blank sentence = false
  /\ original_sentence
       {| corrections := [];
          correct_sentence := lit "I have an apple.";
          original_sentence := sentence |} = sentence
  /\ (0 < 3 <= 0 + 5)%nat
  /\ get_corrections (flaky_chat 2) sample_validate sample_str_response
       sentence (3 - 1)%nat
     = (Return {| corrections := [];
                  correct_sentence := lit "I have an apple.";
                  original_sentence := sentence |}, 3%nat).
Proof.
  apply (correct_single_text_success
           (flaky_chat 2) sample_validate sample_str_response
           {| text := sentence |} 0%nat 3%nat).
  reflexivity.
Defined.

(** X12.  One request to the single endpoint costs at most five calls to
    the service, whatever the text and however the service behaves. *)
Theorem correct_single_text_call_bound
        (chat : Calls -> ChatRequest -> outcome (option ChatResponse))
        (model_validate_json : pystr -> outcome Answer)
        (str_response : option ChatResponse -> pystr)
        (input_data : TextInput) (n : Calls) :
  (n <= snd (correct_single_text
               (get_corrections chat model_validate_json str_response)
               input_data n)
   <= n + 5)%nat.
Proof.
  rewrite correct_single_text_unfold.
  destruct (blank (text input_data)); [simpl; lia|].
  unfold exception_wrapper.
  assert (H5 : Z.to_nat default_max_retries = 5%nat) by reflexivity.
  destruct (retry_loop_cases
              (get_corrections chat model_validate_json str_response)
              (get_corrections_ticks chat model_validate_json str_response)
              (text input_data) default_max_retries
              (Z.to_nat default_max_retries) 0 n eq_refl)
    as (k & Hk & _
        & [(Hkm & [(d & _ & ->) | (e0 & _ & _ & ->)]) | (_ & ->)]);
    simpl; lia.
Qed.

(** X13.  End to end: when the text is not blank, the service raises
    [ResponseError] on the next [k] calls, [k] at most four, and then
    answers with a content the validator accepts, the single endpoint
    returns the validated answer together with the text, after [k + 1]
    calls. *)
Theorem correct_single_text_absorbs_outages
        (chat : Calls -> ChatRequest -> outcome (option ChatResponse))
        (model_validate_json : pystr -> outcome Answer)
        (str_response : option ChatResponse -> pystr)
        (t : pystr) (n : Calls) (k : nat)
        (response : option ChatResponse) (c : pystr) (a : Answer) :
  blank t = false ->
  (k < 5)%nat ->
  (forall j, (j < k)%nat ->
     exists error sc,
       chat (n + j)%nat (chat_request t) = Raise (ResponseError error sc)) ->
  chat (n + k)%nat (chat_request t) = Return response ->
  response_content response = Some c ->
  model_validate_json c = Return a ->
  correct_single_text
    (get_corrections chat model_validate_json str_response)
    {| text := t |} n
  = (Return {| corrections := answer_corrections a;
               correct_sentence := answer_correct_sentence a;
               original_sentence := t |}, (n + k + 1)%nat).
Proof.
  intros Hblank Hk Hfail Hchat Hc Ha.
  rewrite correct_single_text_unfold. cbn [text]. rewrite Hblank.
  unfold exception_wrapper.
  rewrite (retry_loop_returns
             (get_corrections chat model_validate_json str_response)
             (get_corrections_ticks chat model_validate_json str_response)
             t default_max_retries
             {| corrections := answer_corrections a;
                correct_sentence := answer_correct_sentence a;
                original_sentence := t |} k 0 n).
  - f_equal. lia.
  - assert (H5 : Z.to_nat (default_max_retries - 0) = 5%nat) by reflexivity.
    lia.
  - intros j Hj. destruct (Hfail j Hj) as (error & sc & Hj').
    eexists. rewrite get_corrections_table, Hj'. simpl. split; reflexivity.
  - now rewrite get_corrections_table, Hchat, Hc, Ha.
Qed.

Lemma correct_single_text_absorbs_outages_witness :
  correct_single_text
    (get_corrections (flaky_chat 4) sample_validate sample_str_response)
    {| text := sentence |} 0%nat
  = (Return {| corrections := answer_corrections sample_answer;
               correct_sentence := answer_correct_sentence sample_answer;
               original_sentence := sentence |}, (0 + 4 + 1)%nat).
Proof.
  apply (correct_single_text_absorbs_outages
           (flaky_chat 4) sample_validate sample_str_response
           sentence 0%nat 4%nat sample_response sample_payload sample_answer).
  - reflexivity.
  - lia.
  - intros j Hj.
    do 4 (destruct j as [|j]; [eexists _, _; reflexivity|]). lia.
  - reflexivity.
  - reflexivity.
  - reflexivity.
Defined.

(** ** Batch endpoint *)

(** X14.  The only error the batch endpoint raises is the status 400 of
    its guard: that happens for the empty list only, and before any
    call. *)
Theorem correct_batch_texts_only_error
        (attempt : pystr -> M ApiResponse) (input_data : TextListInput)
        (n n' : Calls) (e : exn) :
  correct_batch_texts attempt input_data n = (Raise e, n') ->
  texts input_data = []
  /\ e = HTTPException 400 (lit "Input text list cannot be empty.")
  /\ n' = n.
Proof.
  unfold correct_batch_texts.
  destruct (texts input_data) as [|t ts]; intros H.
  - injection H as <- <-. now repeat split.
  - destruct (batch_loop_total attempt (t :: ts) n) as (out & m & Hout & _).
    rewrite Hout in H. discriminate H.
Qed.

Lemma correct_batch_texts_only_error_witness :
  texts {| texts := [] |} = []
  /\ HTTPException 400 (lit "Input text list cannot be empty.")
     = HTTPException 400 (lit "Input text list cannot be empty.")
  /\ 3%nat = 3%nat.
Proof.
  apply (correct_batch_texts_only_error
           crashing_attempt {| texts := [] |} 3%nat 3%nat
           (HTTPException 400 (lit "Input text list cannot be empty."))).
  reflexivity.
Defined.

Lemma batch_loop_all_blank (attempt : pystr -> M ApiResponse)
      (ts : list pystr) :
  forall (results : list ApiResponse) (n : Calls),
    forallb (forallb is_space) ts = true ->
    batch_loop attempt ts results n
    = (Return (results ++ List.map blank_placeholder ts), n).
Proof.
  induction ts as [|t ts IH]; intros results n Hall.
  - simpl. unfold ret. now rewrite app_nil_r.
  - simpl in Hall. apply andb_true_iff in Hall. destruct Hall as [Ht Hts].
    apply blank_iff in Ht.
    rewrite batch_loop_cons, Ht, (IH _ n Hts).
    simpl. now rewrite <- app_assoc.
Qed.

(** X15.  A batch whose items are all made of whitespace is answered
    without a single call to the service: one blank entry per item, in
    order. *)
Theorem correct_batch_texts_all_blank
        (attempt : pystr -> M ApiResponse) (ts : list pystr) (n : Calls) :
  ts <> [] ->
  forallb (forallb is_space) ts = true ->
  correct_batch_texts attempt {| texts := ts |} n
  = (Return (List.map blank_placeholder ts), n).
Proof.
  intros Hne Hall. unfold correct_batch_texts. cbn [texts].
  destruct ts as [|t ts]; [contradiction|].
  now rewrite (batch_loop_all_blank attempt (t :: ts) [] n Hall).
Qed.

Lemma correct_batch_texts_all_blank_witness :
  correct_batch_texts crashing_attempt {| texts := [blanks; []; blanks] |} 0%nat
  = (Return (List.map blank_placeholder [blanks; []; blanks]), 0%nat).
Proof.
  apply (correct_batch_texts_all_blank
           crashing_attempt [blanks; []; blanks] 0%nat).
  - discriminate.
  - reflexivity.
Defined.

Section BatchCalls.

Variable attempt : pystr -> M ApiResponse.

Hypothesis attempt_ticks :
  forall (text : pystr) (n : Calls), snd (attempt text n) = S n.

Lemma exception_wrapper_default_calls (t : pystr) (n : Calls) :
  (n <= snd (exception_wrapper_default attempt t n) <= n + 5)%nat.
Proof.
  unfold exception_wrapper_default, exception_wrapper.
  assert (H5 : Z.to_nat default_max_retries = 5%nat) by reflexivity.
  destruct (retry_loop_cases attempt attempt_ticks t default_max_retries
              (Z.to_nat default_max_retries) 0 n eq_refl)
    as (k & Hk & _
        & [(Hkm & [(d & _ & ->) | (e0 & _ & _ & ->)]) | (_ & ->)]);
    simpl; lia.
Qed.

Lemma batch_loop_calls (ts : list pystr) :
  forall (results : list ApiResponse) (n : Calls),
    (n <= snd (batch_loop attempt ts results n) <= n + 5 * sent_count ts)%nat.
Proof.
  induction ts as [|t ts IH]; intros results n.
  - simpl. lia.
  - rewrite batch_loop_cons. unfold sent_count. simpl filter.
    destruct (blank t); simpl negb; cbv iota.
    + apply IH.
    + pose proof (exception_wrapper_default_calls t n) as Hw.
      pose proof (IH (results ++
                      [entry_of t (fst (exception_wrapper_default attempt t n))])
                    (snd (exception_wrapper_default attempt t n))) as Hrest.
      unfold sent_count in Hrest. simpl List.length. lia.
Qed.

End BatchCalls.

(** X16.  A batch costs at most five calls to the single attempt for each
    item that is not blank, and none for the others. *)
Theorem correct_batch_texts_call_bound
        (attempt : pystr -> M ApiResponse) (input_data : TextListInput)
        (n : Calls) :
  (forall t i, snd (attempt t i) = S i) ->
  (n <= snd (correct_batch_texts attempt input_data n)
   <= n + 5 * sent_count (texts input_data))%nat.
Proof.
  intros Hticks. unfold correct_batch_texts.
  destruct (texts input_data) as [|t ts] eqn:Hts.
  - simpl. lia.
  - apply (batch_loop_calls attempt Hticks).
Qed.

Lemma correct_batch_texts_call_bound_witness :
  (0 <= snd (correct_batch_texts
               (get_corrections down_chat sample_validate sample_str_response)
               {| texts := [sentence; blanks; sentence] |} 0%nat)
   <= 0 + 5 * sent_count [sentence; blanks; sentence])%nat.
Proof.
  apply (correct_batch_texts_call_bound
           (get_corrections down_chat sample_validate sample_str_response)
           {| texts := [sentence; blanks; sentence] |} 0%nat).
  intros t i. apply get_corrections_ticks.
Defined.

(** X17.  When the wrapper returns a record for a non-blank item, that
    record, unchanged, is the entry at the item's position, and the items
    after it are processed from the call count the wrapper left. *)
Theorem correct_batch_texts_success_item
        (attempt : pystr -> M ApiResponse)
        (pre : list pystr) (t : pystr) (post : list pystr)
        (n n1 n2 : Calls) (out1 : list ApiResponse) (r : ApiResponse) :
  blank t = false ->
  batch_loop attempt pre [] n = (Return out1, n1) ->
  exception_wrapper_default attempt t n1 = (Return r, n2) ->
  exists out2 n3,
    batch_loop attempt post [] n2 = (Return out2, n3)
    /\ correct_batch_texts attempt {| texts := pre ++ t :: post |} n
       = (Return (out1 ++ r :: out2), n3)
    /\ nth_error (out1 ++ r :: out2) (List.length pre) = Some r.
Proof.
  intros Hblank Hpre Hw.
  destruct (batch_loop_total attempt post n2) as (out2 & n3 & Hpost & Hlen2).
  destruct (batch_loop_total attempt pre n) as (out1' & n1' & Hpre' & Hlen1).
  rewrite Hpre in Hpre'. injection Hpre' as <- <-.
  exists out2, n3. split; [exact Hpost|]. split.
  - unfold correct_batch_texts. cbn [texts].
    assert (Hrun : batch_loop attempt (pre ++ t :: post) [] n
                   = (Return (out1 ++ r :: out2), n3)).
    { apply (batch_loop_app attempt pre (t :: post) n out1 _ n1 n3 Hpre).
      rewrite batch_loop_cons, Hblank, Hw, batch_loop_acc. simpl fst. simpl snd.
      now rewrite Hpost. }
    destruct pre; exact Hrun.
  - rewrite nth_error_app2 by lia.
    now rewrite Hlen1, Nat.sub_diag.
Qed.

Lemma correct_batch_texts_success_item_witness :
  exists out2 n3,
    batch_loop
      (get_corrections (flaky_chat 1) sample_validate sample_str_response)
      [blanks] [] 2%nat
    = (Return out2, n3)
    /\ correct_batch_texts
         (get_corrections (flaky_chat 1) sample_validate sample_str_response)
         {| texts := [blanks] ++ sentence :: [blanks] |} 0%nat
       = (Return ([blank_placeholder blanks]
                  ++ {| corrections := [];
                        correct_sentence := lit "I have an apple.";
                        original_sentence := sentence |} :: out2), n3)
    /\ nth_error ([blank_placeholder blanks]
                  ++ {| corrections := [];
                        correct_sentence := lit "I have an apple.";
                        original_sentence := sentence |} :: out2) 1%nat
       = Some {| corrections := [];
                 correct_sentence := lit "I have an apple.";
                 original_sentence := sentence |}.
Proof.
  apply (correct_batch_texts_success_item
           (get_corrections (flaky_chat 1) sample_validate sample_str_response)
           [blanks] sentence [blanks] 0%nat 0%nat 2%nat
           [blank_placeholder blanks]).
  - reflexivity.
  - reflexivity.
  - reflexivity.
Defined.

(** X18.  Batches compose: when a first list is answered from call count
    [n] up to [n1] and a second one from [n1] up to [n2], the two lists
    sent as one batch from [n] give the first results followed by the
    second, at call count [n2]. *)
Theorem correct_batch_texts_concat
        (attempt : pystr -> M ApiResponse) (pre post : list pystr)
        (n n1 n2 : Calls) (out1 out2 : list ApiResponse) :
  correct_batch_texts attempt {| texts := pre |} n = (Return out1, n1) ->
  correct_batch_texts attempt {| texts := post |} n1 = (Return out2, n2) ->
  correct_batch_texts attempt {| texts := pre ++ post |} n
  = (Return (out1 ++ out2), n2).
Proof.
  unfold correct_batch_texts. cbn [texts].
  intros Hpre Hpost.
  destruct pre as [|t pre]; [discriminate Hpre|].
  destruct post as [|u post]; [discriminate Hpost|].
  exact (batch_loop_app attempt (t :: pre) (u :: post) n out1 out2 n1 n2
           Hpre Hpost).
Qed.

Lemma correct_batch_texts_concat_witness :
  correct_batch_texts
    (get_corrections (flaky_chat 1) sample_validate sample_str_response)
    {| texts := [sentence] ++ [blanks; sentence] |} 0%nat
  = (Return ([ {| corrections := [];
                  correct_sentence := lit "I have an apple.";
                  original_sentence := sentence |} ]
             ++ [ blank_placeholder blanks;
                  {| corrections := [];
                     correct_sentence := lit "I have an apple.";
                     original_sentence := sentence |} ]), 3%nat).
Proof.
  apply (correct_batch_texts_concat
           (get_corrections (flaky_chat 1) sample_validate sample_str_response)
           [sentence] [blanks; sentence] 0%nat 2%nat 3%nat).
  - reflexivity.
  - reflexivity.
Defined.
